(** * Upload-URL generation of the builder app

    Shallow embedding of
    [apps/builder/src/features/upload/api/generateUploadUrl.ts]:
    the tRPC mutation [generateUploadUrl] and its helper [parseFilePath].

    - The request's [filePathProps] is a JavaScript object whose shape is
      tested with the [in] operator, so it is a finite map from field names
      to string values.
    - [throw new TRPCError] and the awaited calls to the collaborators are
      modelled by a small monad that carries the log of collaborator calls
      made so far and either an error or a value.
    - The collaborators that live outside this file (the two permission
      predicates and the presigned-URL signer) are section variables; the
      Prisma tables are finite maps indexed by id. *)

From Stdlib Require Import String Ascii List.
From stdpp Require Import base option list strings gmap.

Local Open Scope string_scope.

(** ** JavaScript values *)

Module Js.

(** An object with string-valued fields, e.g. the validated
    [filePathProps]. *)
Abbreviation object := (gmap string string).

(** ['k' in o] *)
Definition has (k : string) (o : object) : bool :=
  match o !! k with Some _ => true | None => false end.

(** Truthiness of a value of type [string | undefined]: [undefined] and
    the empty string are falsy, every other string is truthy. *)
Definition truthy (v : option string) : bool :=
  match v with
  | None => false
  | Some s => negb (String.eqb s "")
  end.

(** Interpolation [${v}] inside a template literal. *)
Definition interpolate (v : option string) : string :=
  match v with
  | None => "undefined"
  | Some s => s
  end.

(** [s.split(sep)] for a one-character separator: the pieces of [s]
    between the occurrences of [sep], never an empty array. *)
Fixpoint split (sep : ascii) (s : string) : list string :=
  match s with
  | EmptyString => [EmptyString]
  | String c rest =>
      if Ascii.eqb c sep then EmptyString :: split sep rest
      else match split sep rest with
           | piece :: pieces => String c piece :: pieces
           | [] => [String c EmptyString]
           end
  end.

End Js.

(** ** Errors *)

Inductive TRPCErrorCode : Type :=
| INTERNAL_SERVER_ERROR
| UNAUTHORIZED
| BAD_REQUEST
| NOT_FOUND.

Record TRPCError : Type := mkTRPCError {
  code : TRPCErrorCode;
  message : string
}.

(** ** The store and the environment *)

(** [prisma.workspace.findUnique] with
    [select: { members: { select: { userId, role } } }]. *)
Record Member : Type := mkMember {
  member_userId : string;
  member_role : string
}.

Record Workspace : Type := mkWorkspace {
  members : list Member
}.

(** [prisma.typebot.findUnique] with
    [select: { workspaceId, collaborators: { select: { userId, type } } }]. *)
Record Collaborator : Type := mkCollaborator {
  collaborator_userId : string;
  collaborator_type : string
}.

Record Typebot : Type := mkTypebot {
  typebot_workspaceId : string;
  collaborators : list Collaborator
}.

Record Prisma : Type := mkPrisma {
  workspace : gmap string Workspace;
  typebot : gmap string Typebot
}.

(** The four settings of [env] read by the mutation. *)
Record Env : Type := mkEnv {
  S3_ENDPOINT : option string;
  S3_ACCESS_KEY : option string;
  S3_SECRET_KEY : option string;
  S3_PUBLIC_CUSTOM_DOMAIN : option string
}.

(** [ctx.user]; only its [id] is read. *)
Module User.
Record t : Type := mk {
  id : string
}.
End User.

(** ** Calls to collaborators, in the order they are awaited *)

Inductive Call : Type :=
| WorkspaceFindUnique (workspaceId : string)
| TypebotFindUnique (typebotId : string)
| IsWriteTypebotForbidden (tb : Typebot) (userId : string)
| GeneratePresignedUrl (fileType : option string) (filePath : string).

(** A computation: the calls it made, and how it ended. *)
Definition M (A : Type) : Type := list Call * (TRPCError + A).

#[global] Instance M_ret : MRet M := fun A a => ([], inr a).

Definition throw {A} (c : TRPCErrorCode) (msg : string) : M A :=
  ([], inl (mkTRPCError c msg)).

#[global] Instance M_bind : MBind M := fun A B k m =>
  match m with
  | (log, inl e) => (log, inl e)
  | (log, inr a) => let '(log', r) := k a in ((log ++ log')%list, r)
  end.

(** [await f(...)] for a collaborator call [c] that resolves to [a]. *)
Definition await {A} (c : Call) (a : A) : M A := ([c], inr a).

Definition calls {A} (m : M A) : list Call := fst m.
Definition outcome {A} (m : M A) : TRPCError + A := snd m.

(** ** The input schema

    [inputSchema.shape.filePathProps] is the union of four object schemas,
    listed here in the order of the source; [z.object] keeps the declared
    keys only. *)

Inductive FilePathUploadProps : Type :=
| ByBlock (workspaceId typebotId blockId : string) (itemId : option string)
| ByTypebot (workspaceId typebotId fileName : string)
| ByUser (userId fileName : string)
| ByWorkspace (workspaceId fileName : string).

(** The object a validated request carries. *)
Definition props (p : FilePathUploadProps) : Js.object :=
  match p with
  | ByBlock w t b None =>
      <["workspaceId" := w]> (<["typebotId" := t]> (<["blockId" := b]> ∅))
  | ByBlock w t b (Some i) =>
      <["workspaceId" := w]>
        (<["typebotId" := t]> (<["blockId" := b]> (<["itemId" := i]> ∅)))
  | ByTypebot w t f =>
      <["workspaceId" := w]> (<["typebotId" := t]> (<["fileName" := f]> ∅))
  | ByUser u f =>
      <["userId" := u]> (<["fileName" := f]> ∅)
  | ByWorkspace w f =>
      <["workspaceId" := w]> (<["fileName" := f]> ∅)
  end.

(** ** Validation of [filePathProps] by the schema

    The request body is JSON. [z.string()] accepts a key that is present
    with a string value; [z.string().optional()] also accepts an absent key.
    [z.object] returns the declared keys only, and [a.or(b)] returns what [a]
    returns when [a] accepts and what [b] returns otherwise, so the first
    member of the chain that accepts decides the variant. *)

Module Zod.

(** A JSON value, as far as [z.string()] can tell. *)
Inductive json : Type :=
| JString (s : string)
| JOther.

(** [z.string()] on the value found under a key. *)
Definition z_string (v : option json) : option string :=
  match v with
  | Some (JString s) => Some s
  | _ => None
  end.

(** [z.string().optional()] on the value found under a key. *)
Definition z_string_optional (v : option json) : option (option string) :=
  match v with
  | None => Some None
  | Some (JString s) => Some (Some s)
  | Some JOther => None
  end.

(** [a.or(b)] *)
Definition or {A} (a b : gmap string json -> option A) (raw : gmap string json)
    : option A :=
  match a raw with
  | Some x => Some x
  | None => b raw
  end.

(** [z.object({ workspaceId, typebotId, blockId, itemId: optional })] *)
Definition blockProps (raw : gmap string json) : option FilePathUploadProps :=
  w ← z_string (raw !! "workspaceId");
  t ← z_string (raw !! "typebotId");
  b ← z_string (raw !! "blockId");
  i ← z_string_optional (raw !! "itemId");
  Some (ByBlock w t b i).

(** [z.object({ workspaceId, typebotId, fileName })] *)
Definition typebotProps (raw : gmap string json) : option FilePathUploadProps :=
  w ← z_string (raw !! "workspaceId");
  t ← z_string (raw !! "typebotId");
  f ← z_string (raw !! "fileName");
  Some (ByTypebot w t f).

(** [z.object({ userId, fileName })] *)
Definition userProps (raw : gmap string json) : option FilePathUploadProps :=
  u ← z_string (raw !! "userId");
  f ← z_string (raw !! "fileName");
  Some (ByUser u f).

(** [z.object({ workspaceId, fileName })] *)
Definition workspaceProps (raw : gmap string json) : option FilePathUploadProps :=
  w ← z_string (raw !! "workspaceId");
  f ← z_string (raw !! "fileName");
  Some (ByWorkspace w f).

(** [inputSchema.shape.filePathProps] *)
Definition filePathProps : gmap string json -> option FilePathUploadProps :=
  or (or (or blockProps typebotProps) userProps) workspaceProps.

End Zod.

Record Output : Type := mkOutput {
  presignedUrl : string;
  fileUrl : string
}.

(** ** The program *)

Section Program.

(** [@/features/workspace/helpers/isWriteWorkspaceForbidden] *)
Variable isWriteWorkspaceForbidden : Workspace -> string -> bool.
(** [@/features/typebot/helpers/isWriteTypebotForbidden] (asynchronous) *)
Variable isWriteTypebotForbidden : Typebot -> string -> bool.
(** [@typebot.io/lib/s3/generatePresignedUrl] *)
Variable generatePresignedUrl : option string -> string -> string.

Variable prisma : Prisma.

Definition workspace_findUnique (wid : string) : M (option Workspace) :=
  await (WorkspaceFindUnique wid) (workspace prisma !! wid).

Definition typebot_findUnique (tid : string) : M (option Typebot) :=
  await (TypebotFindUnique tid) (typebot prisma !! tid).

(** [!workspace || isWriteWorkspaceForbidden(workspace, { id })] *)
Definition workspace_denied (ws : option Workspace) (uid : string) : bool :=
  match ws with
  | None => true
  | Some w => isWriteWorkspaceForbidden w uid
  end.

(** [!typebot || (await isWriteTypebotForbidden(typebot, { id }))]:
    the predicate is awaited only when the typebot was found. *)
Definition typebot_denied (tb : option Typebot) (uid : string) : M bool :=
  match tb with
  | None => mret true
  | Some t => await (IsWriteTypebotForbidden t uid) (isWriteTypebotForbidden t uid)
  end.

Definition parseFilePath (authenticatedUserId : option string)
    (input : Js.object) : M string :=
  if negb (Js.truthy authenticatedUserId) then
    throw UNAUTHORIZED "You must be logged in to upload this type of file"
  else
    let uid := Js.interpolate authenticatedUserId in
    match input !! "userId" with
    | Some userId =>
        if negb (String.eqb userId uid) then
          throw UNAUTHORIZED
            "You are not authorized to upload a file for this user"
        else
          mret ("public/users/" +:+ userId +:+ "/"
               +:+ Js.interpolate (input !! "fileName"))
    | None =>
    match input !! "workspaceId" with
    | None => throw BAD_REQUEST "workspaceId is missing"
    | Some workspaceId =>
    match input !! "typebotId" with
    | None =>
        ws ← workspace_findUnique workspaceId;
        if workspace_denied ws uid then
          throw NOT_FOUND "Workspace not found"
        else
          mret ("public/workspaces/" +:+ workspaceId +:+ "/"
               +:+ Js.interpolate (input !! "fileName"))
    | Some typebotId =>
        tb ← typebot_findUnique typebotId;
        denied ← typebot_denied tb uid;
        if (denied : bool) then
          throw NOT_FOUND "Typebot not found"
        else
          match input !! "blockId" with
          | None =>
              mret ("public/workspaces/" +:+ workspaceId +:+ "/typebots/"
                   +:+ typebotId +:+ "/"
                   +:+ Js.interpolate (input !! "fileName"))
          | Some blockId =>
              mret ("public/workspaces/" +:+ workspaceId +:+ "/typebots/"
                   +:+ typebotId +:+ "/blocks/" +:+ blockId
                   +:+ (if Js.truthy (input !! "itemId")
                        then "/items/" +:+ Js.interpolate (input !! "itemId")
                        else ""))
          end
    end end end.

(** [!env.S3_ENDPOINT || !env.S3_ACCESS_KEY || !env.S3_SECRET_KEY] *)
Definition s3_misconfigured (env : Env) : bool :=
  negb (Js.truthy (S3_ENDPOINT env))
  || negb (Js.truthy (S3_ACCESS_KEY env))
  || negb (Js.truthy (S3_SECRET_KEY env)).

(** ['resultId' in filePathProps && !user] *)
Definition result_upload_without_user (filePathProps : Js.object)
    (user : option User.t) : bool :=
  Js.has "resultId" filePathProps
  && match user with None => true | Some _ => false end.

(** The [fileUrl] field of the response. *)
Definition composeFileUrl (env : Env) (filePath presigned : string) : string :=
  if Js.truthy (S3_PUBLIC_CUSTOM_DOMAIN env) then
    Js.interpolate (S3_PUBLIC_CUSTOM_DOMAIN env) +:+ "/" +:+ filePath
  else
    hd "undefined" (Js.split "?" presigned).

(** The mutation: [input: { filePathProps, fileType }, ctx: { user }]. *)
Definition generateUploadUrl (env : Env) (filePathProps : Js.object)
    (fileType : option string) (user : option User.t) : M Output :=
  if s3_misconfigured env then
    throw INTERNAL_SERVER_ERROR
      "S3 not properly configured. Missing one of those variables: S3_ENDPOINT, S3_ACCESS_KEY, S3_SECRET_KEY"
  else if result_upload_without_user filePathProps user then
    throw UNAUTHORIZED "You must be logged in to upload a file"
  else
    filePath ← parseFilePath (User.id <$> user) filePathProps;
    presigned ← await (GeneratePresignedUrl fileType filePath)
                      (generatePresignedUrl fileType filePath);
    mret (mkOutput presigned (composeFileUrl env filePath presigned)).

End Program.

(** ** Basic facts about the JavaScript primitives *)

Lemma truthy_Some (s : string) : Js.truthy (Some s) = true <-> s <> "".
Proof.
  unfold Js.truthy. rewrite negb_true_iff. apply String.eqb_neq.
Qed.

Lemma truthy_Some_empty : Js.truthy (Some "") = false.
Proof. reflexivity. Qed.

Lemma truthy_None : Js.truthy None = false.
Proof. reflexivity. Qed.

Lemma truthy_inv (v : option string) :
  Js.truthy v = true -> exists s, v = Some s /\ s <> "".
Proof.
  destruct v as [s|]; [|discriminate].
  intros H. exists s. split; [reflexivity | by apply truthy_Some].
Qed.

Lemma has_true (k : string) (o : Js.object) :
  Js.has k o = true <-> is_Some (o !! k).
Proof.
  unfold Js.has. destruct (o !! k) eqn:E; split; intros H; try done.
Qed.

Lemma has_false (k : string) (o : Js.object) :
  Js.has k o = false <-> o !! k = None.
Proof. unfold Js.has. by destruct (o !! k). Qed.

(** The array returned by [split] always has a first element. *)
Lemma split_nonempty (sep : ascii) (s : string) : Js.split sep s <> [].
Proof.
  destruct s as [|c rest]; simpl; [done|].
  destruct (Ascii.eqb c sep); [done|].
  by destruct (Js.split sep rest).
Qed.

(** "Everything before the first [sep]", written from the words of the
    response composer's description rather than from [split]. *)
Fixpoint before_first (sep : ascii) (s : string) : string :=
  match s with
  | EmptyString => EmptyString
  | String c rest =>
      if Ascii.eqb c sep then EmptyString else String c (before_first sep rest)
  end.

Fixpoint occurs (sep : ascii) (s : string) : bool :=
  match s with
  | EmptyString => false
  | String c rest => Ascii.eqb c sep || occurs sep rest
  end.

Lemma split_head (sep : ascii) (s : string) :
  hd "undefined" (Js.split sep s) = before_first sep s.
Proof.
  induction s as [|c rest IH]; simpl; [done|].
  destruct (Ascii.eqb c sep); [done|].
  pose proof (split_nonempty sep rest) as Hne.
  destruct (Js.split sep rest) as [|piece pieces]; [done|].
  simpl in *. by rewrite IH.
Qed.

(** [before_first] is the longest prefix free of [sep]: what follows it is
    empty or starts with [sep]. *)
Lemma before_first_prefix (sep : ascii) (s : string) :
  occurs sep (before_first sep s) = false /\
  exists rest, s = before_first sep s +:+ rest /\
               (rest = "" \/ exists tl, rest = String sep tl).
Proof.
  induction s as [|c s' [IHo (rest & IHeq & IHrest)]]; simpl.
  - split; [done|]. exists "". by split; [|left].
  - destruct (Ascii.eqb c sep) eqn:E; simpl.
    + split; [done|]. apply Ascii.eqb_eq in E as ->.
      exists (String sep s'). split; [done|]. right. by eexists.
    + rewrite E, IHo. split; [done|].
      exists rest. split; [exact (f_equal (String c) IHeq) | done].
Qed.

Lemma before_first_no_sep (sep : ascii) (s : string) :
  occurs sep s = false -> before_first sep s = s.
Proof.
  induction s as [|c s' IH]; simpl; [done|].
  intros [E H]%orb_false_iff. rewrite E. by rewrite IH.
Qed.

(** ** How computations in [M] run *)

Lemma bind_await {A B} (c : Call) (a : A) (k : A -> M B) :
  (await c a ≫= k) = (c :: calls (k a), outcome (k a)).
Proof. unfold mbind, M_bind, await, calls, outcome. by destruct (k a). Qed.

Lemma bind_ret {A B} (a : A) (k : A -> M B) : (mret a ≫= k) = k a.
Proof. unfold mbind, M_bind, mret, M_ret. by destruct (k a). Qed.

Lemma bind_throw {A B} (c : TRPCErrorCode) (msg : string) (k : A -> M B) :
  (throw c msg ≫= k) = throw c msg.
Proof. reflexivity. Qed.

Lemma bind_inl {A B} (m : M A) (k : A -> M B) (e : TRPCError) :
  outcome m = inl e -> (m ≫= k) = (calls m, inl e).
Proof. destruct m as [log [e'|a]]; simpl; [|done]. by intros [= ->]. Qed.

Lemma bind_inr {A B} (m : M A) (k : A -> M B) (a : A) :
  outcome m = inr a ->
  (m ≫= k) = ((calls m ++ calls (k a))%list, outcome (k a)).
Proof.
  destruct m as [log [e'|a']]; simpl; [done|]. intros [= ->].
  unfold mbind, M_bind, calls, outcome. by destruct (k a).
Qed.

(** ** The objects of the four variants *)

Section Shapes.

Variables (w t b u f i : string).

Lemma ByUser_fields :
  props (ByUser u f) !! "userId" = Some u /\
  props (ByUser u f) !! "fileName" = Some f /\
  props (ByUser u f) !! "workspaceId" = None.
Proof. by simpl; simplify_map_eq. Qed.

Lemma ByWorkspace_fields :
  props (ByWorkspace w f) !! "userId" = None /\
  props (ByWorkspace w f) !! "workspaceId" = Some w /\
  props (ByWorkspace w f) !! "typebotId" = None /\
  props (ByWorkspace w f) !! "fileName" = Some f.
Proof. by simpl; simplify_map_eq. Qed.

Lemma ByTypebot_fields :
  props (ByTypebot w t f) !! "userId" = None /\
  props (ByTypebot w t f) !! "workspaceId" = Some w /\
  props (ByTypebot w t f) !! "typebotId" = Some t /\
  props (ByTypebot w t f) !! "blockId" = None /\
  props (ByTypebot w t f) !! "fileName" = Some f.
Proof. by simpl; simplify_map_eq. Qed.

Lemma ByBlock_fields (itemId : option string) :
  props (ByBlock w t b itemId) !! "userId" = None /\
  props (ByBlock w t b itemId) !! "workspaceId" = Some w /\
  props (ByBlock w t b itemId) !! "typebotId" = Some t /\
  props (ByBlock w t b itemId) !! "blockId" = Some b /\
  props (ByBlock w t b itemId) !! "itemId" = itemId.
Proof. by destruct itemId; simpl; simplify_map_eq. Qed.

End Shapes.

(** No validated request carries a [resultId] field. *)
Lemma props_no_resultId (p : FilePathUploadProps) :
  Js.has "resultId" (props p) = false.
Proof.
  apply has_false.
  by destruct p as [? ? ? [?|]| | |]; simpl; simplify_map_eq.
Qed.

(** ** The branches of [parseFilePath], one equation each *)

Definition not_logged_in : TRPCError :=
  mkTRPCError UNAUTHORIZED "You must be logged in to upload this type of file".

Definition wrong_user : TRPCError :=
  mkTRPCError UNAUTHORIZED "You are not authorized to upload a file for this user".

Definition workspaceId_missing : TRPCError :=
  mkTRPCError BAD_REQUEST "workspaceId is missing".

Definition workspace_not_found : TRPCError :=
  mkTRPCError NOT_FOUND "Workspace not found".

Definition typebot_not_found : TRPCError :=
  mkTRPCError NOT_FOUND "Typebot not found".

(** The error of the check that precedes [parseFilePath] in the mutation. *)
Definition login_required : TRPCError :=
  mkTRPCError UNAUTHORIZED "You must be logged in to upload a file".

Definition s3_not_configured : TRPCError :=
  mkTRPCError INTERNAL_SERVER_ERROR
    "S3 not properly configured. Missing one of those variables: S3_ENDPOINT, S3_ACCESS_KEY, S3_SECRET_KEY".

Section Resolver.

Variable isWriteWorkspaceForbidden : Workspace -> string -> bool.
Variable isWriteTypebotForbidden : Typebot -> string -> bool.
Variable prisma : Prisma.

Local Abbreviation resolve :=
  (parseFilePath isWriteWorkspaceForbidden isWriteTypebotForbidden prisma).

Lemma resolve_falsy_user (auth : option string) (input : Js.object) :
  Js.truthy auth = false -> resolve auth input = ([], inl not_logged_in).
Proof. intros H. unfold parseFilePath. by rewrite H. Qed.

Lemma resolve_user (uid userId : string) (input : Js.object) :
  uid <> "" -> input !! "userId" = Some userId ->
  resolve (Some uid) input =
    if String.eqb userId uid
    then ([], inr ("public/users/" +:+ userId +:+ "/"
                   +:+ Js.interpolate (input !! "fileName")))
    else ([], inl wrong_user).
Proof.
  intros Hu%truthy_Some Hf. unfold parseFilePath.
  rewrite Hu, Hf. simpl. by destruct (String.eqb userId uid).
Qed.

Lemma resolve_no_workspaceId (uid : string) (input : Js.object) :
  uid <> "" -> input !! "userId" = None -> input !! "workspaceId" = None ->
  resolve (Some uid) input = ([], inl workspaceId_missing).
Proof.
  intros Hu%truthy_Some Hf Hw. unfold parseFilePath.
  by rewrite Hu, Hf, Hw.
Qed.

Lemma resolve_workspace (uid wid : string) (input : Js.object) :
  uid <> "" -> input !! "userId" = None -> input !! "workspaceId" = Some wid ->
  input !! "typebotId" = None ->
  resolve (Some uid) input =
    ([WorkspaceFindUnique wid],
     if workspace_denied isWriteWorkspaceForbidden (workspace prisma !! wid) uid
     then inl workspace_not_found
     else inr ("public/workspaces/" +:+ wid +:+ "/"
               +:+ Js.interpolate (input !! "fileName"))).
Proof.
  intros Hu%truthy_Some Hf Hw Ht. unfold parseFilePath.
  rewrite Hu, Hf, Hw, Ht. cbn [negb Js.interpolate].
  unfold workspace_findUnique. rewrite bind_await.
  unfold calls, outcome, throw, mret, M_ret.
  by destruct (workspace_denied _ _ _).
Qed.

(** The tail of the typebot branch, once the typebot is found and the
    caller may write to it. *)
Definition typebot_path (wid tid : string) (input : Js.object) : string :=
  match input !! "blockId" with
  | None =>
      "public/workspaces/" +:+ wid +:+ "/typebots/" +:+ tid +:+ "/"
      +:+ Js.interpolate (input !! "fileName")
  | Some blockId =>
      "public/workspaces/" +:+ wid +:+ "/typebots/" +:+ tid
      +:+ "/blocks/" +:+ blockId
      +:+ (if Js.truthy (input !! "itemId")
           then "/items/" +:+ Js.interpolate (input !! "itemId")
           else "")
  end.

Lemma resolve_typebot (uid wid tid : string) (input : Js.object) :
  uid <> "" -> input !! "userId" = None -> input !! "workspaceId" = Some wid ->
  input !! "typebotId" = Some tid ->
  resolve (Some uid) input =
    match typebot prisma !! tid with
    | None => ([TypebotFindUnique tid], inl typebot_not_found)
    | Some tb =>
        ([TypebotFindUnique tid; IsWriteTypebotForbidden tb uid],
         if isWriteTypebotForbidden tb uid
         then inl typebot_not_found
         else inr (typebot_path wid tid input))
    end.
Proof.
  intros Hu%truthy_Some Hf Hw Ht. unfold parseFilePath.
  rewrite Hu, Hf, Hw, Ht. cbn [negb Js.interpolate].
  unfold typebot_findUnique. rewrite bind_await.
  destruct (typebot prisma !! tid) as [tb|]; cbn [typebot_denied].
  - rewrite bind_await. unfold typebot_path, calls, outcome, throw, mret, M_ret.
    by destruct (isWriteTypebotForbidden tb uid), (input !! "blockId").
  - by rewrite bind_ret.
Qed.

End Resolver.

(** ** The mutation, one equation per outcome of its two guards *)

Section Mutation.

Variable isWriteWorkspaceForbidden : Workspace -> string -> bool.
Variable isWriteTypebotForbidden : Typebot -> string -> bool.
Variable generatePresignedUrl : option string -> string -> string.
Variable prisma : Prisma.

Local Abbreviation resolve :=
  (parseFilePath isWriteWorkspaceForbidden isWriteTypebotForbidden prisma).
Local Abbreviation mutation :=
  (generateUploadUrl isWriteWorkspaceForbidden isWriteTypebotForbidden
     generatePresignedUrl prisma).


Lemma mutation_misconfigured env input fileType user :
  s3_misconfigured env = true ->
  mutation env input fileType user = ([], inl s3_not_configured).
Proof. intros H. unfold generateUploadUrl. by rewrite H. Qed.

Lemma mutation_result_guard env input fileType user :
  s3_misconfigured env = false ->
  result_upload_without_user input user = true ->
  mutation env input fileType user = ([], inl login_required).
Proof. intros H1 H2. unfold generateUploadUrl. by rewrite H1, H2. Qed.

Lemma mutation_resolved env input fileType user :
  s3_misconfigured env = false ->
  result_upload_without_user input user = false ->
  mutation env input fileType user =
    match outcome (resolve (User.id <$> user) input) with
    | inl e => (calls (resolve (User.id <$> user) input), inl e)
    | inr filePath =>
        ((calls (resolve (User.id <$> user) input)
          ++ [GeneratePresignedUrl fileType filePath])%list,
         inr (mkOutput (generatePresignedUrl fileType filePath)
                (composeFileUrl env filePath
                   (generatePresignedUrl fileType filePath))))
    end.
Proof.
  intros H1 H2. unfold generateUploadUrl. rewrite H1, H2.
  destruct (outcome (resolve (User.id <$> user) input)) as [e|filePath] eqn:E.
  - by rewrite (bind_inl _ _ _ E).
  - rewrite (bind_inr _ _ _ E). by rewrite bind_await.
Qed.

End Mutation.

(** When the guards of the mutation pass, an error of [parseFilePath] is the
    error of the mutation, and the signer is not called. *)
Lemma mutation_propagates pw pt sign prisma env input fileType usr log e :
  s3_misconfigured env = false ->
  parseFilePath pw pt prisma (Some (User.id usr)) input = (log, inl e) ->
  generateUploadUrl pw pt sign prisma env input fileType (Some usr)
  = (log, inl e).
Proof.
  intros Hcfg Hres.
  rewrite mutation_resolved; [|done|].
  - simpl. by rewrite Hres.
  - unfold result_upload_without_user. apply andb_false_r.
Qed.

(** Every way [parseFilePath] can fail, with the condition that leads to it. *)
Lemma resolve_failure pw pt prisma auth input e :
  outcome (parseFilePath pw pt prisma auth input) = inl e ->
  (e = not_logged_in /\ Js.truthy auth = false) \/
  (e = wrong_user /\ Js.truthy auth = true /\ Js.has "userId" input = true) \/
  (e = workspaceId_missing /\ Js.truthy auth = true /\
   Js.has "userId" input = false /\ Js.has "workspaceId" input = false) \/
  (e = workspace_not_found /\ Js.truthy auth = true /\
   Js.has "userId" input = false /\ Js.has "workspaceId" input = true /\
   Js.has "typebotId" input = false) \/
  (e = typebot_not_found /\ Js.truthy auth = true /\
   Js.has "userId" input = false /\ Js.has "workspaceId" input = true /\
   Js.has "typebotId" input = true).
Proof.
  destruct (Js.truthy auth) eqn:Hauth.
  - destruct (truthy_inv _ Hauth) as (uid & -> & Huid).
    unfold Js.has.
    destruct (input !! "userId") as [userId|] eqn:Hu.
    { rewrite (resolve_user _ _ _ uid userId input Huid Hu).
      destruct (String.eqb userId uid); simpl; [done|].
      intros [= <-]. right; left. done. }
    destruct (input !! "workspaceId") as [wid|] eqn:Hw.
    2:{ rewrite (resolve_no_workspaceId _ _ _ uid input Huid Hu Hw). simpl.
        intros [= <-]. do 2 right; left. done. }
    destruct (input !! "typebotId") as [tid|] eqn:Ht.
    + rewrite (resolve_typebot _ _ _ uid wid tid input Huid Hu Hw Ht).
      destruct (typebot prisma !! tid) as [tb|]; simpl.
      * destruct (pt tb uid); [|done]. intros [= <-]. do 4 right. done.
      * intros [= <-]. do 4 right. done.
    + rewrite (resolve_workspace _ _ _ uid wid input Huid Hu Hw Ht). simpl.
      destruct (workspace_denied _ _ _); [|done].
      intros [= <-]. do 3 right; left. done.
  - rewrite resolve_falsy_user by done. simpl. intros [= <-]. left. done.
Qed.

(** ** A concrete deployment, used to run the program *)

Module Sample.

(** A workspace predicate in the style of the helper: members with a role
    other than guest may write. *)
Definition isWriteWorkspaceForbidden (ws : Workspace) (uid : string) : bool :=
  match List.find (fun m => String.eqb (member_userId m) uid) (members ws) with
  | None => true
  | Some m => String.eqb (member_role m) "GUEST"
  end.

(** A typebot predicate: collaborators with write access may write. *)
Definition isWriteTypebotForbidden (tb : Typebot) (uid : string) : bool :=
  match List.find (fun c => String.eqb (collaborator_userId c) uid)
          (collaborators tb) with
  | None => true
  | Some c => String.eqb (collaborator_type c) "READ"
  end.

Definition generatePresignedUrl (fileType : option string) (filePath : string)
    : string :=
  "https://s3.example.com/bucket/" +:+ filePath
  +:+ "?X-Amz-Expires=3600&X-Amz-Signature=abc".

(** Typebot [t1] is stored under workspace [w9], not [w1]. *)
Definition prisma : Prisma :=
  mkPrisma
    (<["w1" := mkWorkspace [mkMember "u1" "ADMIN"; mkMember "u2" "GUEST"]]> ∅)
    (<["t1" := mkTypebot "w9" [mkCollaborator "u1" "WRITE";
                                mkCollaborator "u2" "READ"]]> ∅).

Definition env : Env :=
  mkEnv (Some "https://s3.example.com") (Some "key") (Some "secret") None.

Definition env_with_domain : Env :=
  mkEnv (Some "https://s3.example.com") (Some "key") (Some "secret")
        (Some "https://cdn.example.com").

Definition env_without_secret : Env :=
  mkEnv (Some "https://s3.example.com") (Some "key") None None.

Definition parse :=
  parseFilePath isWriteWorkspaceForbidden isWriteTypebotForbidden prisma.

Definition run :=
  generateUploadUrl isWriteWorkspaceForbidden isWriteTypebotForbidden
    generatePresignedUrl prisma.

End Sample.

Example sample_block_upload :
  Sample.run Sample.env (props (ByBlock "w1" "t1" "b1" None)) None
    (Some (User.mk "u1"))
  = ([TypebotFindUnique "t1";
      IsWriteTypebotForbidden
        (mkTypebot "w9" [mkCollaborator "u1" "WRITE";
                         mkCollaborator "u2" "READ"]) "u1";
      GeneratePresignedUrl None "public/workspaces/w1/typebots/t1/blocks/b1"],
     inr (mkOutput
            "https://s3.example.com/bucket/public/workspaces/w1/typebots/t1/blocks/b1?X-Amz-Expires=3600&X-Amz-Signature=abc"
            "https://s3.example.com/bucket/public/workspaces/w1/typebots/t1/blocks/b1")).
Proof. vm_compute. reflexivity. Qed.

Example sample_guest_is_refused :
  Sample.parse (Some "u2") (props (ByWorkspace "w1" "logo.png"))
  = ([WorkspaceFindUnique "w1"], inl workspace_not_found).
Proof. vm_compute. reflexivity. Qed.

(** * The properties of the specification *)

(** ** Configuration *)

(** C9. Whatever the input and whoever the caller, if one of the three
    storage settings (endpoint, access key, secret key) is unset, the
    mutation fails with the internal configuration error; no collaborator is
    called, and neither the caller nor the input is looked at: the result is
    the same for all of them. *)
Theorem missing_s3_setting_is_config_error :
  forall pw pt sign prisma env input fileType user,
    S3_ENDPOINT env = None \/ S3_ACCESS_KEY env = None \/
    S3_SECRET_KEY env = None ->
    generateUploadUrl pw pt sign prisma env input fileType user
    = ([], inl s3_not_configured)
    /\ code s3_not_configured = INTERNAL_SERVER_ERROR.
Proof.
  intros pw pt sign prisma env input fileType user H.
  split; [|reflexivity].
  apply mutation_misconfigured. unfold s3_misconfigured.
  destruct H as [-> | [-> | ->]]; simpl.
  - reflexivity.
  - by rewrite orb_true_r.
  - apply orb_true_r.
Qed.

Lemma missing_s3_setting_is_config_error_witness :
  Sample.run Sample.env_without_secret (props (ByUser "u1" "avatar.png"))
    None (Some (User.mk "u1"))
  = ([], inl s3_not_configured)
  /\ code s3_not_configured = INTERNAL_SERVER_ERROR.
Proof.
  apply (missing_s3_setting_is_config_error
           Sample.isWriteWorkspaceForbidden Sample.isWriteTypebotForbidden
           Sample.generatePresignedUrl Sample.prisma
           Sample.env_without_secret).
  right; right. reflexivity.
Defined.

(** ** Authentication *)

(** C2. With no authenticated user, [parseFilePath] fails with an
    Unauthorized error for every input object, hence for every variant, and
    it does so without any call to a collaborator: no store lookup, no
    permission predicate, and no path is returned. The mutation, once the
    storage settings are present, fails in the same way, and the signer is
    not called either. *)
Theorem unauthenticated_is_unauthorized :
  forall pw pt sign prisma input,
    parseFilePath pw pt prisma None input = ([], inl not_logged_in)
    /\ code not_logged_in = UNAUTHORIZED
    /\ forall env fileType,
         s3_misconfigured env = false ->
         exists e,
           generateUploadUrl pw pt sign prisma env input fileType None
           = ([], inl e)
           /\ code e = UNAUTHORIZED.
Proof.
  intros pw pt sign prisma input.
  split; [by apply resolve_falsy_user|]. split; [reflexivity|].
  intros env fileType Hcfg.
  destruct (result_upload_without_user input None) eqn:Hguard.
  - exists login_required. split; [|reflexivity].
    by apply mutation_result_guard.
  - exists not_logged_in. split; [|reflexivity].
    rewrite mutation_resolved by done.
    change (User.id <$> None) with (@None string).
    by rewrite resolve_falsy_user.
Qed.

Lemma unauthenticated_is_unauthorized_witness :
  s3_misconfigured Sample.env = false
  /\ exists e,
       Sample.run Sample.env (props (ByTypebot "w1" "t1" "logo.png")) None None
       = ([], inl e)
       /\ code e = UNAUTHORIZED.
Proof.
  split; [reflexivity|].
  apply (unauthenticated_is_unauthorized
           Sample.isWriteWorkspaceForbidden Sample.isWriteTypebotForbidden
           Sample.generatePresignedUrl Sample.prisma).
  reflexivity.
Defined.

(** C3, as the code has it. For every input that carries a [userId] field,
    with no authenticated user and the storage settings present, the
    mutation fails with an Unauthorized error before any collaborator is
    called. The check made ahead of [parseFilePath] tests for a [resultId]
    field, not for [userId]: its error is the one raised exactly when the
    input also carries [resultId]; otherwise the error comes from the general
    authentication check that opens [parseFilePath]. The user-scoped variant
    of the schema never carries [resultId], so it always gets the latter. *)
Theorem userId_without_user_fails_in_general_check :
  forall pw pt sign prisma env input fileType,
    s3_misconfigured env = false ->
    Js.has "userId" input = true ->
    generateUploadUrl pw pt sign prisma env input fileType None
    = ([], inl (if Js.has "resultId" input
                then login_required else not_logged_in))
    /\ code login_required = UNAUTHORIZED
    /\ code not_logged_in = UNAUTHORIZED
    /\ (forall u f, input = props (ByUser u f) ->
          generateUploadUrl pw pt sign prisma env input fileType None
          = ([], inl not_logged_in)).
Proof.
  intros pw pt sign prisma env input fileType Hcfg _.
  assert (Hgen :
    generateUploadUrl pw pt sign prisma env input fileType None
    = ([], inl (if Js.has "resultId" input
                then login_required else not_logged_in))).
  { destruct (Js.has "resultId" input) eqn:Hres.
    - apply mutation_result_guard; [done|].
      unfold result_upload_without_user. by rewrite Hres.
    - rewrite mutation_resolved; [|done|].
      + change (User.id <$> None) with (@None string).
        by rewrite resolve_falsy_user.
      + unfold result_upload_without_user. by rewrite Hres. }
  repeat split; [exact Hgen|].
  intros u f ->. rewrite Hgen. by rewrite props_no_resultId.
Qed.

Lemma userId_without_user_fails_in_general_check_witness :
  Sample.run Sample.env (props (ByUser "u1" "avatar.png")) None None
  = ([], inl not_logged_in).
Proof.
  refine (proj1 (userId_without_user_fails_in_general_check
           Sample.isWriteWorkspaceForbidden Sample.isWriteTypebotForbidden
           Sample.generatePresignedUrl Sample.prisma Sample.env
           (props (ByUser "u1" "avatar.png")) None _ _));
    reflexivity.
Defined.

(** C3 as stated fails: a user-scoped request without a user does carry
    [userId], yet the check ahead of [parseFilePath] does not fire for it,
    and the error it gets is not that check's error but the one of the
    general authentication check. *)
Lemma userId_check_counterexample :
  let input := props (ByUser "u1" "avatar.png") in
  Js.has "userId" input = true
  /\ result_upload_without_user input None = false
  /\ outcome (Sample.run Sample.env input None None) = inl not_logged_in
  /\ outcome (Sample.run Sample.env input None None) <> inl login_required.
Proof.
  vm_compute. repeat split; try reflexivity. discriminate.
Qed.

(** C7. A user-scoped request made by an authenticated user whose id is not
    the target [userId] fails with an Unauthorized error, whatever the store
    contains; no collaborator is called, so no lookup takes place. *)
Theorem other_user_is_unauthorized :
  forall pw pt sign prisma uid userId fileName,
    uid <> userId ->
    (exists e,
       parseFilePath pw pt prisma (Some uid) (props (ByUser userId fileName))
       = ([], inl e)
       /\ code e = UNAUTHORIZED
       /\ (uid <> "" -> e = wrong_user))
    /\ (forall env fileType,
          s3_misconfigured env = false ->
          exists e,
            generateUploadUrl pw pt sign prisma env
              (props (ByUser userId fileName)) fileType
              (Some (User.mk uid))
            = ([], inl e)
            /\ code e = UNAUTHORIZED).
Proof.
  intros pw pt sign prisma uid userId fileName Hne.
  assert (Hparse : exists e,
       parseFilePath pw pt prisma (Some uid) (props (ByUser userId fileName))
       = ([], inl e)
       /\ code e = UNAUTHORIZED
       /\ (uid <> "" -> e = wrong_user)).
  { destruct (decide (uid = "")) as [->|Huid].
    - exists not_logged_in. by rewrite resolve_falsy_user.
    - exists wrong_user.
      destruct (ByUser_fields userId fileName) as (Hu & _ & _).
      rewrite (resolve_user _ _ _ uid userId _ Huid Hu).
      assert (String.eqb userId uid = false) as ->
        by (apply String.eqb_neq; congruence).
      done. }
  split; [exact Hparse|].
  intros env fileType Hcfg. destruct Hparse as (e & Hres & Hcode & _).
  exists e. split; [|exact Hcode].
  by apply (mutation_propagates pw pt sign prisma env _ fileType (User.mk uid)).
Qed.

Lemma other_user_is_unauthorized_witness :
  exists e,
    Sample.parse (Some "u2") (props (ByUser "u1" "avatar.png")) = ([], inl e)
    /\ code e = UNAUTHORIZED
    /\ ("u2" <> "" -> e = wrong_user).
Proof.
  refine (proj1 (other_user_is_unauthorized
           Sample.isWriteWorkspaceForbidden Sample.isWriteTypebotForbidden
           Sample.generatePresignedUrl Sample.prisma "u2" "u1" "avatar.png" _)).
  discriminate.
Defined.

(** ** Malformed targets *)

(** C10. With an authenticated user, an input that carries neither a
    [userId] nor a [workspaceId] field fails with the BadRequest error
    before any collaborator is called. Conversely a BadRequest error, from
    [parseFilePath] or from the mutation, arises only for such an input and
    an authenticated user. *)
Theorem bad_request_iff_no_userId_no_workspaceId :
  forall pw pt sign prisma input,
    (forall uid,
       uid <> "" ->
       Js.has "userId" input = false ->
       Js.has "workspaceId" input = false ->
       parseFilePath pw pt prisma (Some uid) input
       = ([], inl workspaceId_missing)
       /\ code workspaceId_missing = BAD_REQUEST
       /\ forall env fileType,
            s3_misconfigured env = false ->
            generateUploadUrl pw pt sign prisma env input fileType
              (Some (User.mk uid))
            = ([], inl workspaceId_missing))
    /\ (forall auth e,
          outcome (parseFilePath pw pt prisma auth input) = inl e ->
          code e = BAD_REQUEST ->
          Js.truthy auth = true
          /\ Js.has "userId" input = false
          /\ Js.has "workspaceId" input = false)
    /\ (forall env fileType user e,
          outcome (generateUploadUrl pw pt sign prisma env input fileType user)
          = inl e ->
          code e = BAD_REQUEST ->
          Js.truthy (User.id <$> user) = true
          /\ Js.has "userId" input = false
          /\ Js.has "workspaceId" input = false).
Proof.
  intros pw pt sign prisma input.
  assert (Hconv : forall auth e,
          outcome (parseFilePath pw pt prisma auth input) = inl e ->
          code e = BAD_REQUEST ->
          Js.truthy auth = true
          /\ Js.has "userId" input = false
          /\ Js.has "workspaceId" input = false).
  { intros auth e Hout Hcode.
    destruct (resolve_failure _ _ _ _ _ _ Hout)
      as [[-> _] | [[-> _] | [[-> H] | [[-> _] | [-> _]]]]];
      try discriminate Hcode.
    exact H. }
  split; [|split; [exact Hconv|]].
  - intros uid Huid Hu%has_false Hw%has_false.
    pose proof (resolve_no_workspaceId pw pt prisma uid input Huid Hu Hw) as Hres.
    split; [exact Hres|]. split; [reflexivity|].
    intros env fileType Hcfg.
    by apply (mutation_propagates pw pt sign prisma env _ fileType (User.mk uid)).
  - intros env fileType user e Hout Hcode.
    destruct (s3_misconfigured env) eqn:Hcfg.
    { rewrite mutation_misconfigured in Hout by done.
      simpl in Hout. injection Hout as <-. discriminate Hcode. }
    destruct (result_upload_without_user input user) eqn:Hguard.
    { rewrite mutation_result_guard in Hout by done.
      simpl in Hout. injection Hout as <-. discriminate Hcode. }
    rewrite mutation_resolved in Hout by done.
    destruct (outcome (parseFilePath pw pt prisma (User.id <$> user) input))
      as [e'|path] eqn:Hres; simpl in Hout; [|discriminate].
    injection Hout as ->. by apply (Hconv _ e).
Qed.

Lemma bad_request_iff_no_userId_no_workspaceId_witness :
  Sample.parse (Some "u1") (<["fileName" := "logo.png"]> ∅)
  = ([], inl workspaceId_missing).
Proof.
  refine (proj1 (proj1 (bad_request_iff_no_userId_no_workspaceId
           Sample.isWriteWorkspaceForbidden Sample.isWriteTypebotForbidden
           Sample.generatePresignedUrl Sample.prisma
           (<["fileName" := "logo.png"]> ∅)) "u1" _ _ _));
    [discriminate | reflexivity | reflexivity].
Defined.

(** ** Workspace uploads *)

(** C5. A workspace-scoped request by an authenticated user looks the
    workspace up once. If there is none, or if the write-permission
    predicate forbids the user, the result is the NotFound error, the same
    error in both cases, and the mutation fails with it without calling
    the signer. Otherwise the path is
    [public/workspaces/{workspaceId}/{fileName}]. *)
Theorem workspace_upload_not_found_or_path :
  forall pw pt sign prisma uid workspaceId fileName,
    uid <> "" ->
    let input := props (ByWorkspace workspaceId fileName) in
    let denied := ([WorkspaceFindUnique workspaceId], inl workspace_not_found) in
    (workspace prisma !! workspaceId = None ->
     parseFilePath pw pt prisma (Some uid) input = denied)
    /\ (forall ws,
          workspace prisma !! workspaceId = Some ws -> pw ws uid = true ->
          parseFilePath pw pt prisma (Some uid) input = denied)
    /\ (forall ws,
          workspace prisma !! workspaceId = Some ws -> pw ws uid = false ->
          parseFilePath pw pt prisma (Some uid) input
          = ([WorkspaceFindUnique workspaceId],
             inr ("public/workspaces/" +:+ workspaceId +:+ "/" +:+ fileName)))
    /\ code workspace_not_found = NOT_FOUND
    /\ (forall env fileType,
          s3_misconfigured env = false ->
          parseFilePath pw pt prisma (Some uid) input = denied ->
          generateUploadUrl pw pt sign prisma env input fileType
            (Some (User.mk uid))
          = ([WorkspaceFindUnique workspaceId], inl workspace_not_found)).
Proof.
  intros pw pt sign prisma uid w f Huid input denied.
  destruct (ByWorkspace_fields w f) as (Hu & Hw & Ht & Hf).
  pose proof (resolve_workspace pw pt prisma uid w input Huid Hu Hw Ht) as Heq.
  fold input in Hf. rewrite Hf in Heq. simpl in Heq.
  repeat split.
  - intros Hnone. rewrite Heq, Hnone. reflexivity.
  - intros ws Hsome Hforbidden. rewrite Heq, Hsome. simpl.
    by rewrite Hforbidden.
  - intros ws Hsome Hallowed. rewrite Heq, Hsome. simpl.
    by rewrite Hallowed.
  - intros env fileType Hcfg Hres.
    by apply (mutation_propagates pw pt sign prisma env _ fileType (User.mk uid)).
Qed.

Lemma workspace_upload_not_found_or_path_witness :
  Sample.parse (Some "u1") (props (ByWorkspace "w1" "logo.png"))
  = ([WorkspaceFindUnique "w1"], inr "public/workspaces/w1/logo.png").
Proof.
  refine (proj1 (proj2 (proj2 (workspace_upload_not_found_or_path
           Sample.isWriteWorkspaceForbidden Sample.isWriteTypebotForbidden
           Sample.generatePresignedUrl Sample.prisma "u1" "w1" "logo.png" _)))
           (mkWorkspace [mkMember "u1" "ADMIN"; mkMember "u2" "GUEST"]) _ _);
    [discriminate | vm_compute; reflexivity | reflexivity].
Defined.

(** ** Typebot and block uploads *)

(** The [typebotId] of the two variants that have one. *)
Definition typebotId_of (p : FilePathUploadProps) : option string :=
  match p with
  | ByBlock _ t _ _ | ByTypebot _ t _ => Some t
  | ByUser _ _ | ByWorkspace _ _ => None
  end.

Definition workspaceId_of (p : FilePathUploadProps) : option string :=
  match p with
  | ByBlock w _ _ _ | ByTypebot w _ _ | ByWorkspace w _ => Some w
  | ByUser _ _ => None
  end.

Lemma typebot_variant_fields (p : FilePathUploadProps) (t : string) :
  typebotId_of p = Some t ->
  exists w, workspaceId_of p = Some w
            /\ props p !! "userId" = None
            /\ props p !! "workspaceId" = Some w
            /\ props p !! "typebotId" = Some t.
Proof.
  destruct p as [w t' b i | w t' f | u f | w f]; simpl; try discriminate;
    intros [= ->]; exists w.
  - destruct (ByBlock_fields w t b i) as (? & ? & ? & _). done.
  - destruct (ByTypebot_fields w t f) as (? & ? & ? & _). done.
Qed.

(** C6. A typebot- or block-scoped request by an authenticated user looks
    the typebot up. If there is none, or if the write-permission predicate,
    awaited on the record found, forbids the user, the result is the
    NotFound error: no path is produced, and the mutation fails with that
    error without calling the signer. *)
Theorem typebot_upload_not_found :
  forall pw pt sign prisma uid p typebotId,
    uid <> "" ->
    typebotId_of p = Some typebotId ->
    (typebot prisma !! typebotId = None ->
     parseFilePath pw pt prisma (Some uid) (props p)
     = ([TypebotFindUnique typebotId], inl typebot_not_found))
    /\ (forall tb,
          typebot prisma !! typebotId = Some tb -> pt tb uid = true ->
          parseFilePath pw pt prisma (Some uid) (props p)
          = ([TypebotFindUnique typebotId; IsWriteTypebotForbidden tb uid],
             inl typebot_not_found))
    /\ code typebot_not_found = NOT_FOUND
    /\ (forall env fileType log,
          s3_misconfigured env = false ->
          parseFilePath pw pt prisma (Some uid) (props p)
          = (log, inl typebot_not_found) ->
          generateUploadUrl pw pt sign prisma env (props p) fileType
            (Some (User.mk uid))
          = (log, inl typebot_not_found)).
Proof.
  intros pw pt sign prisma uid p t Huid Hp.
  destruct (typebot_variant_fields p t Hp) as (w & _ & Hu & Hw & Ht).
  pose proof (resolve_typebot pw pt prisma uid w t (props p) Huid Hu Hw Ht)
    as Heq.
  repeat split.
  - intros Hnone. by rewrite Heq, Hnone.
  - intros tb Hsome Hforbidden. by rewrite Heq, Hsome, Hforbidden.
  - intros env fileType log Hcfg Hres.
    by apply (mutation_propagates pw pt sign prisma env _ fileType (User.mk uid)).
Qed.

Lemma typebot_upload_not_found_witness :
  Sample.parse (Some "u2") (props (ByBlock "w1" "t1" "b1" (Some "i1")))
  = ([TypebotFindUnique "t1";
      IsWriteTypebotForbidden
        (mkTypebot "w9" [mkCollaborator "u1" "WRITE";
                         mkCollaborator "u2" "READ"]) "u2"],
     inl typebot_not_found).
Proof.
  refine (proj1 (proj2 (typebot_upload_not_found
           Sample.isWriteWorkspaceForbidden Sample.isWriteTypebotForbidden
           Sample.generatePresignedUrl Sample.prisma "u2"
           (ByBlock "w1" "t1" "b1" (Some "i1")) "t1" _ _)) _ _ _);
    [discriminate | reflexivity | vm_compute; reflexivity | reflexivity].
Defined.

(** The same store with the owning workspace of typebot [tid] replaced. *)
Definition move_typebot (tid wid' : string) (db : Prisma) : Prisma :=
  mkPrisma (workspace db)
           (alter (fun tb => mkTypebot wid' (collaborators tb)) tid (typebot db)).

(** C4. In a typebot- or block-scoped request the workspace segment of the
    path is the [workspaceId] of the input. The [workspaceId] stored with
    the typebot is only handed to the permission predicate: two runs whose
    stores differ in nothing but that stored [workspaceId], and in which the
    predicate answers alike, end alike, with the same path or the same
    error. *)
Theorem stored_workspaceId_is_ignored :
  forall pw pt prisma uid p workspaceId typebotId,
    uid <> "" ->
    workspaceId_of p = Some workspaceId ->
    typebotId_of p = Some typebotId ->
    (forall log path,
       parseFilePath pw pt prisma (Some uid) (props p) = (log, inr path) ->
       exists rest,
         path = "public/workspaces/" +:+ workspaceId +:+ "/typebots/"
                +:+ typebotId +:+ "/" +:+ rest)
    /\ (forall tb stored,
          typebot prisma !! typebotId = Some tb ->
          pt (mkTypebot stored (collaborators tb)) uid = pt tb uid ->
          outcome (parseFilePath pw pt (move_typebot typebotId stored prisma)
                     (Some uid) (props p))
          = outcome (parseFilePath pw pt prisma (Some uid) (props p))).
Proof.
  intros pw pt prisma uid p w t Huid Hpw Hp.
  destruct (typebot_variant_fields p t Hp) as (w' & Hpw' & Hu & Hw & Ht).
  assert (w' = w) as -> by congruence.
  split.
  - intros log path.
    rewrite (resolve_typebot pw pt prisma uid w t (props p) Huid Hu Hw Ht).
    destruct (typebot prisma !! t) as [tb|]; [|discriminate].
    destruct (pt tb uid); [discriminate|]. intros [= _ <-].
    unfold typebot_path.
    destruct (props p !! "blockId") as [blockId|]; eexists.
    + change ("/blocks/" +:+ blockId +:+ ?x)
        with ("/" +:+ "blocks/" +:+ blockId +:+ x). reflexivity.
    + reflexivity.
  - intros tb stored Hsome Hsame.
    rewrite (resolve_typebot pw pt prisma uid w t (props p) Huid Hu Hw Ht).
    rewrite (resolve_typebot pw pt _ uid w t (props p) Huid Hu Hw Ht).
    unfold move_typebot. simpl.
    rewrite lookup_alter_eq, Hsome. simpl. by rewrite Hsame.
Qed.

Lemma stored_workspaceId_is_ignored_witness :
  outcome (parseFilePath Sample.isWriteWorkspaceForbidden
             Sample.isWriteTypebotForbidden
             (move_typebot "t1" "w1" Sample.prisma)
             (Some "u1") (props (ByTypebot "w1" "t1" "logo.png")))
  = outcome (Sample.parse (Some "u1") (props (ByTypebot "w1" "t1" "logo.png"))).
Proof.
  refine (proj2 (stored_workspaceId_is_ignored
           Sample.isWriteWorkspaceForbidden Sample.isWriteTypebotForbidden
           Sample.prisma "u1" (ByTypebot "w1" "t1" "logo.png") "w1" "t1" _ _ _)
           (mkTypebot "w9" [mkCollaborator "u1" "WRITE";
                            mkCollaborator "u2" "READ"]) "w1" _ _);
    [discriminate | reflexivity | reflexivity | vm_compute; reflexivity
    | reflexivity].
Defined.

(** The typebot of the sample store lives under [w9]; a request naming
    [w1] is nevertheless filed under [w1]. *)
Example sample_path_uses_input_workspace :
  typebot_workspaceId <$> typebot Sample.prisma !! "t1" = Some "w9"
  /\ outcome (Sample.parse (Some "u1") (props (ByTypebot "w1" "t1" "logo.png")))
     = inr "public/workspaces/w1/typebots/t1/logo.png".
Proof. vm_compute. split; reflexivity. Qed.

(** ** Path formats *)

(** C1, as the code has it. When the caller is authenticated and the
    permission check of the variant passes, [parseFilePath] returns
    - [public/users/{userId}/{fileName}] for a user-scoped request,
    - [public/workspaces/{workspaceId}/{fileName}] for a workspace-scoped
      one,
    - [public/workspaces/{workspaceId}/typebots/{typebotId}/{fileName}] for
      a typebot-scoped one,
    - [public/workspaces/{workspaceId}/typebots/{typebotId}/blocks/{blockId}]
      for a block-scoped one, followed by [/items/{itemId}] exactly when
      [itemId] is present and is not the empty string. *)
Theorem path_formats :
  forall pw pt prisma uid,
    uid <> "" ->
    let path p := outcome (parseFilePath pw pt prisma (Some uid) (props p)) in
    (forall fileName,
       path (ByUser uid fileName)
       = inr ("public/users/" +:+ uid +:+ "/" +:+ fileName))
    /\ (forall w fileName ws,
          workspace prisma !! w = Some ws -> pw ws uid = false ->
          path (ByWorkspace w fileName)
          = inr ("public/workspaces/" +:+ w +:+ "/" +:+ fileName))
    /\ (forall w t fileName tb,
          typebot prisma !! t = Some tb -> pt tb uid = false ->
          path (ByTypebot w t fileName)
          = inr ("public/workspaces/" +:+ w +:+ "/typebots/" +:+ t
                 +:+ "/" +:+ fileName))
    /\ (forall w t b itemId tb,
          typebot prisma !! t = Some tb -> pt tb uid = false ->
          path (ByBlock w t b itemId)
          = inr ("public/workspaces/" +:+ w +:+ "/typebots/" +:+ t
                 +:+ "/blocks/" +:+ b
                 +:+ match itemId with
                     | Some i => if String.eqb i "" then "" else "/items/" +:+ i
                     | None => ""
                     end)).
Proof.
  intros pw pt prisma uid Huid path. subst path. repeat split.
  - intros f. destruct (ByUser_fields uid f) as (Hu & Hf & _).
    rewrite (resolve_user _ _ _ uid uid _ Huid Hu), Hf.
    by rewrite String.eqb_refl.
  - intros w f ws Hsome Hallowed.
    destruct (ByWorkspace_fields w f) as (Hu & Hw & Ht & Hf).
    rewrite (resolve_workspace pw pt prisma uid w _ Huid Hu Hw Ht), Hsome, Hf.
    simpl. by rewrite Hallowed.
  - intros w t f tb Hsome Hallowed.
    destruct (ByTypebot_fields w t f) as (Hu & Hw & Ht & Hb & Hf).
    rewrite (resolve_typebot pw pt prisma uid w t _ Huid Hu Hw Ht), Hsome.
    cbn [outcome snd]. rewrite Hallowed. unfold typebot_path.
    by rewrite Hb, Hf.
  - intros w t b itemId tb Hsome Hallowed.
    destruct (ByBlock_fields w t b itemId) as (Hu & Hw & Ht & Hb & Hi).
    rewrite (resolve_typebot pw pt prisma uid w t _ Huid Hu Hw Ht), Hsome.
    cbn [outcome snd]. rewrite Hallowed. unfold typebot_path.
    rewrite Hb, Hi.
    destruct itemId as [i|]; cbn [Js.truthy Js.interpolate]; [|done].
    by destruct (String.eqb i "").
Qed.

Lemma path_formats_witness :
  outcome (Sample.parse (Some "u1") (props (ByBlock "w1" "t1" "b1" (Some "i1"))))
  = inr "public/workspaces/w1/typebots/t1/blocks/b1/items/i1".
Proof.
  refine (proj2 (proj2 (proj2 (path_formats
           Sample.isWriteWorkspaceForbidden Sample.isWriteTypebotForbidden
           Sample.prisma "u1" _))) "w1" "t1" "b1" (Some "i1")
           (mkTypebot "w9" [mkCollaborator "u1" "WRITE";
                            mkCollaborator "u2" "READ"]) _ _);
    [discriminate | vm_compute; reflexivity | reflexivity].
Defined.

(** C1 as stated fails: the schema accepts the empty string as [itemId];
    the field is then present, the caller is authenticated and may write to
    the typebot, and yet the path stops at the block. *)
Lemma empty_itemId_counterexample :
  let input := props (ByBlock "w1" "t1" "b1" (Some "")) in
  Js.has "itemId" input = true
  /\ typebot Sample.prisma !! "t1"
     = Some (mkTypebot "w9" [mkCollaborator "u1" "WRITE";
                             mkCollaborator "u2" "READ"])
  /\ Sample.isWriteTypebotForbidden
       (mkTypebot "w9" [mkCollaborator "u1" "WRITE";
                        mkCollaborator "u2" "READ"]) "u1" = false
  /\ outcome (Sample.parse (Some "u1") input)
     = inr "public/workspaces/w1/typebots/t1/blocks/b1"
  /\ outcome (Sample.parse (Some "u1") input)
     <> inr ("public/workspaces/w1/typebots/t1/blocks/b1" +:+ "/items/" +:+ "").
Proof.
  vm_compute. repeat split; try reflexivity. discriminate.
Qed.

(** ** The response *)

(** C8. When the mutation succeeds, [presignedUrl] is what the signer
    returned for the path of [parseFilePath], and [fileUrl] is the public
    custom domain, a slash and that path when the domain is configured, and
    otherwise the presigned URL cut at its first question mark. A domain set
    to the empty string counts as not configured. *)
Theorem fileUrl_of_success :
  forall pw pt sign prisma env input fileType user log out,
    generateUploadUrl pw pt sign prisma env input fileType user
    = (log, inr out) ->
    exists filePath,
      outcome (parseFilePath pw pt prisma (User.id <$> user) input)
      = inr filePath
      /\ presignedUrl out = sign fileType filePath
      /\ (forall domain,
            S3_PUBLIC_CUSTOM_DOMAIN env = Some domain -> domain <> "" ->
            fileUrl out = domain +:+ "/" +:+ filePath)
      /\ (S3_PUBLIC_CUSTOM_DOMAIN env = None ->
          fileUrl out = before_first "?" (presignedUrl out))
      /\ (S3_PUBLIC_CUSTOM_DOMAIN env = Some "" ->
          fileUrl out = before_first "?" (presignedUrl out)).
Proof.
  intros pw pt sign prisma env input fileType user log out Hrun.
  destruct (s3_misconfigured env) eqn:Hcfg.
  { by rewrite mutation_misconfigured in Hrun. }
  destruct (result_upload_without_user input user) eqn:Hguard.
  { by rewrite mutation_result_guard in Hrun. }
  rewrite mutation_resolved in Hrun by done.
  destruct (outcome (parseFilePath pw pt prisma (User.id <$> user) input))
    as [e|filePath]; [done|].
  injection Hrun as _ <-. exists filePath. simpl.
  split; [done|]. split; [done|]. unfold composeFileUrl.
  repeat split.
  - intros domain -> Hne%truthy_Some. by rewrite Hne.
  - intros ->. simpl. apply split_head.
  - intros ->. simpl. apply split_head.
Qed.

Lemma fileUrl_of_success_witness :
  exists filePath,
    outcome (Sample.parse (Some "u1") (props (ByUser "u1" "avatar.png")))
    = inr filePath
    /\ filePath = "public/users/u1/avatar.png"
    /\ "https://cdn.example.com/public/users/u1/avatar.png"
       = "https://cdn.example.com" +:+ "/" +:+ filePath.
Proof.
  destruct (fileUrl_of_success
             Sample.isWriteWorkspaceForbidden Sample.isWriteTypebotForbidden
             Sample.generatePresignedUrl Sample.prisma Sample.env_with_domain
             (props (ByUser "u1" "avatar.png")) (Some "image/png")
             (Some (User.mk "u1"))
             [GeneratePresignedUrl (Some "image/png")
                "public/users/u1/avatar.png"]
             (mkOutput
                "https://s3.example.com/bucket/public/users/u1/avatar.png?X-Amz-Expires=3600&X-Amz-Signature=abc"
                "https://cdn.example.com/public/users/u1/avatar.png")
             ltac:(vm_compute; reflexivity))
    as (filePath & Hpath & _ & Hdomain & _).
  exists filePath. split; [exact Hpath|]. split.
  - vm_compute in Hpath. congruence.
  - apply (Hdomain "https://cdn.example.com"); [reflexivity | discriminate].
Defined.

Example sample_fileUrl_without_domain :
  fileUrl <$> (match outcome (Sample.run Sample.env
                                (props (ByUser "u1" "avatar.png"))
                                None (Some (User.mk "u1")))
               with inr out => Some out | inl _ => None end)
  = Some "https://s3.example.com/bucket/public/users/u1/avatar.png".
Proof. vm_compute. reflexivity. Qed.

(** * Further properties of the code *)

(** ** The schema of [filePathProps] *)

Lemma z_string_Some (v : option Zod.json) (s : string) :
  Zod.z_string v = Some s <-> v = Some (Zod.JString s).
Proof.
  destruct v as [[s'|]|]; simpl; split; intros H; try discriminate;
    congruence.
Qed.

Lemma z_string_optional_Some (v : option Zod.json) (o : option string) :
  Zod.z_string_optional v = Some o <-> v = Zod.JString <$> o.
Proof.
  destruct v as [[s'|]|], o as [s|]; simpl; split; intros H;
    try discriminate; congruence.
Qed.

(** What the raw object must look like for each variant to come out. *)
Lemma schema_inversion (raw : gmap string Zod.json) (p : FilePathUploadProps) :
  Zod.filePathProps raw = Some p ->
  match p with
  | ByBlock w t b i =>
      raw !! "workspaceId" = Some (Zod.JString w)
      /\ raw !! "typebotId" = Some (Zod.JString t)
      /\ raw !! "blockId" = Some (Zod.JString b)
      /\ raw !! "itemId" = Zod.JString <$> i
  | ByTypebot w t f =>
      raw !! "workspaceId" = Some (Zod.JString w)
      /\ raw !! "typebotId" = Some (Zod.JString t)
      /\ raw !! "fileName" = Some (Zod.JString f)
      /\ Zod.blockProps raw = None
  | ByUser u f =>
      raw !! "userId" = Some (Zod.JString u)
      /\ raw !! "fileName" = Some (Zod.JString f)
      /\ Zod.blockProps raw = None /\ Zod.typebotProps raw = None
  | ByWorkspace w f =>
      raw !! "workspaceId" = Some (Zod.JString w)
      /\ raw !! "fileName" = Some (Zod.JString f)
      /\ Zod.blockProps raw = None /\ Zod.typebotProps raw = None
      /\ Zod.userProps raw = None
  end.
Proof.
  unfold Zod.filePathProps, Zod.or.
  destruct (Zod.blockProps raw) as [q|] eqn:Hb.
  { intros [= ->]. unfold Zod.blockProps in Hb.
    destruct (Zod.z_string (raw !! "workspaceId")) as [w|] eqn:Hw; [|done].
    destruct (Zod.z_string (raw !! "typebotId")) as [t|] eqn:Ht; [|done].
    destruct (Zod.z_string (raw !! "blockId")) as [b|] eqn:Hbl; [|done].
    destruct (Zod.z_string_optional (raw !! "itemId")) as [i|] eqn:Hi; [|done].
    simpl in Hb. injection Hb as <-.
    apply z_string_Some in Hw, Ht, Hbl. apply z_string_optional_Some in Hi.
    done. }
  destruct (Zod.typebotProps raw) as [q|] eqn:Ht.
  { intros [= ->]. unfold Zod.typebotProps in Ht.
    destruct (Zod.z_string (raw !! "workspaceId")) as [w|] eqn:Hw; [|done].
    destruct (Zod.z_string (raw !! "typebotId")) as [t|] eqn:Hty; [|done].
    destruct (Zod.z_string (raw !! "fileName")) as [f|] eqn:Hf; [|done].
    simpl in Ht. injection Ht as <-.
    apply z_string_Some in Hw, Hty, Hf. done. }
  destruct (Zod.userProps raw) as [q|] eqn:Hu.
  { intros [= ->]. unfold Zod.userProps in Hu.
    destruct (Zod.z_string (raw !! "userId")) as [u|] eqn:Hus; [|done].
    destruct (Zod.z_string (raw !! "fileName")) as [f|] eqn:Hf; [|done].
    simpl in Hu. injection Hu as <-.
    apply z_string_Some in Hus, Hf. done. }
  intros Hws. unfold Zod.workspaceProps in Hws.
  destruct (Zod.z_string (raw !! "workspaceId")) as [w|] eqn:Hw; [|done].
  destruct (Zod.z_string (raw !! "fileName")) as [f|] eqn:Hf; [|done].
  simpl in Hws. injection Hws as <-.
  apply z_string_Some in Hw, Hf. done.
Qed.

(** Each variant's object, sent back as JSON, is accepted as that very
    variant: no earlier member of the union captures it. *)
Theorem schema_accepts_its_own_output :
  forall p, Zod.filePathProps (Zod.JString <$> props p) = Some p.
Proof.
  intros p. unfold Zod.filePathProps, Zod.or, Zod.blockProps,
    Zod.typebotProps, Zod.userProps, Zod.workspaceProps.
  rewrite !lookup_fmap.
  destruct p as [w t b i | w t f | u f | w f].
  - destruct (ByBlock_fields w t b i) as (_ & -> & -> & -> & ->).
    by destruct i.
  - destruct (ByTypebot_fields w t f) as (_ & -> & -> & -> & ->). done.
  - destruct (ByUser_fields u f) as (-> & -> & ->). done.
  - destruct (ByWorkspace_fields w f) as (-> & -> & -> & ->). done.
Qed.

(** The validated object holds nothing the request did not send: each of
    its fields is a string field of the raw object, with the same value. *)
Theorem schema_output_within_input :
  forall raw p k s,
    Zod.filePathProps raw = Some p ->
    props p !! k = Some s ->
    raw !! k = Some (Zod.JString s).
Proof.
  intros raw p k s Hp%schema_inversion Hk.
  destruct p as [w t b [i|] | w t f | u f | w f]; simpl in Hk;
    repeat (apply lookup_insert_Some in Hk as [[<- <-] | [_ Hk]];
            [tauto|]);
    by rewrite lookup_empty in Hk.
Qed.

Lemma schema_output_within_input_witness :
  (<["workspaceId" := Zod.JString "w1"]>
     (<["typebotId" := Zod.JString "t1"]>
        (<["fileName" := Zod.JString "logo.png"]>
           (<["resultId" := Zod.JString "r1"]> ∅))) : gmap string Zod.json)
    !! "typebotId"
  = Some (Zod.JString "t1").
Proof.
  apply (schema_output_within_input _ (ByTypebot "w1" "t1" "logo.png"));
    vm_compute; reflexivity.
Defined.

(** The order of the union decides between overlapping shapes. An object
    with string [workspaceId], [typebotId] and [blockId] and a well-typed
    [itemId] is block-scoped whatever else it carries, its [fileName] and
    [userId] being dropped. An object with string [userId] and [fileName]
    and no string [typebotId] is user-scoped, even with a [workspaceId]. A
    workspace-scoped result means there was no string [userId] and no string
    [typebotId]. *)
Theorem schema_variant_order :
  forall raw,
    (forall w t b i,
       raw !! "workspaceId" = Some (Zod.JString w) ->
       raw !! "typebotId" = Some (Zod.JString t) ->
       raw !! "blockId" = Some (Zod.JString b) ->
       raw !! "itemId" = Zod.JString <$> i ->
       Zod.filePathProps raw = Some (ByBlock w t b i))
    /\ (forall u f,
          raw !! "userId" = Some (Zod.JString u) ->
          raw !! "fileName" = Some (Zod.JString f) ->
          Zod.z_string (raw !! "typebotId") = None ->
          Zod.filePathProps raw = Some (ByUser u f))
    /\ (forall w f,
          Zod.filePathProps raw = Some (ByWorkspace w f) ->
          Zod.z_string (raw !! "userId") = None
          /\ Zod.z_string (raw !! "typebotId") = None).
Proof.
  intros raw. split; [|split; [|intros w f H; split]].
  - intros w t b i Hw Ht Hb Hi.
    unfold Zod.filePathProps, Zod.or, Zod.blockProps.
    rewrite Hw, Ht, Hb, Hi. by destruct i.
  - intros u f Hu Hf Ht.
    unfold Zod.filePathProps, Zod.or, Zod.blockProps, Zod.typebotProps,
      Zod.userProps.
    rewrite Hu, Hf, Ht. simpl.
    by destruct (Zod.z_string (raw !! "workspaceId")).
  - apply schema_inversion in H as (_ & Hf & _ & _ & Hu).
    unfold Zod.userProps in Hu. apply z_string_Some in Hf. rewrite Hf in Hu.
    by destruct (Zod.z_string (raw !! "userId")).
  - apply schema_inversion in H as (Hw & Hf & _ & Ht & _).
    unfold Zod.typebotProps in Ht. apply z_string_Some in Hw, Hf.
    rewrite Hw, Hf in Ht. simpl in Ht.
    by destruct (Zod.z_string (raw !! "typebotId")).
Qed.

Lemma schema_variant_order_witness :
  Zod.filePathProps
    (<["userId" := Zod.JString "u1"]>
       (<["workspaceId" := Zod.JString "w1"]>
          (<["fileName" := Zod.JString "avatar.png"]> ∅)))
  = Some (ByUser "u1" "avatar.png").
Proof.
  apply (proj1 (proj2 (schema_variant_order _))); reflexivity.
Defined.

(** ** Which collaborators are called, and when *)







(** ** Requests that passed the schema *)



(** ** What the decision depends on *)



(** Every path handed out lies under the caller's own user folder or under
    the folder of the workspace named in the input. A [userId] field takes
    precedence over every other field: the path is then the user folder of
    the authenticated id, and no collaborator was called. *)
Theorem every_path_is_scoped :
  forall pw pt prisma auth input log path,
    parseFilePath pw pt prisma auth input = (log, inr path) ->
    exists uid,
      auth = Some uid /\ uid <> ""
      /\ ((input !! "userId" = Some uid /\ log = []
           /\ path = "public/users/" +:+ uid +:+ "/"
                     +:+ Js.interpolate (input !! "fileName"))
          \/ (input !! "userId" = None
              /\ exists w rest,
                   input !! "workspaceId" = Some w
                   /\ path = "public/workspaces/" +:+ w +:+ "/" +:+ rest)).
Proof.
  intros pw pt prisma auth input log path Hres.
  destruct (Js.truthy auth) eqn:Hauth.
  2:{ by rewrite resolve_falsy_user in Hres. }
  destruct (truthy_inv _ Hauth) as (uid & -> & Huid).
  exists uid. split; [done|]. split; [done|].
  destruct (input !! "userId") as [userId|] eqn:Hu.
  { left. rewrite (resolve_user _ _ _ uid userId input Huid Hu) in Hres.
    destruct (String.eqb userId uid) eqn:E; [|discriminate].
    apply String.eqb_eq in E as ->. by injection Hres as <- <-. }
  right. split; [done|].
  destruct (input !! "workspaceId") as [w|] eqn:Hw.
  2:{ by rewrite (resolve_no_workspaceId _ _ _ uid input Huid Hu Hw) in Hres. }
  exists w.
  destruct (input !! "typebotId") as [t|] eqn:Ht.
  - rewrite (resolve_typebot pw pt _ uid w t input Huid Hu Hw Ht) in Hres.
    destruct (typebot prisma !! t) as [tb|]; [|discriminate].
    destruct (pt tb uid); [discriminate|]. injection Hres as _ <-.
    unfold typebot_path.
    destruct (input !! "blockId") as [b|]; eexists; split; done.
  - rewrite (resolve_workspace pw pt _ uid w input Huid Hu Hw Ht) in Hres.
    destruct (workspace_denied _ _ _); [discriminate|].
    injection Hres as _ <-. by eexists.
Qed.

Lemma every_path_is_scoped_witness :
  exists uid,
    Some "u1" = Some uid /\ uid <> ""
    /\ ((props (ByTypebot "w1" "t1" "logo.png") !! "userId" = Some uid
         /\ [TypebotFindUnique "t1";
             IsWriteTypebotForbidden
               (mkTypebot "w9" [mkCollaborator "u1" "WRITE";
                                mkCollaborator "u2" "READ"]) "u1"] = []
         /\ "public/workspaces/w1/typebots/t1/logo.png"
            = "public/users/" +:+ uid +:+ "/"
              +:+ Js.interpolate
                    (props (ByTypebot "w1" "t1" "logo.png") !! "fileName"))
        \/ (props (ByTypebot "w1" "t1" "logo.png") !! "userId" = None
            /\ exists w rest,
                 props (ByTypebot "w1" "t1" "logo.png") !! "workspaceId"
                 = Some w
                 /\ "public/workspaces/w1/typebots/t1/logo.png"
                    = "public/workspaces/" +:+ w +:+ "/" +:+ rest)).
Proof.
  apply (every_path_is_scoped
           Sample.isWriteWorkspaceForbidden Sample.isWriteTypebotForbidden
           Sample.prisma).
  vm_compute. reflexivity.
Defined.

(** ** File names *)

Lemma append_empty_r (a : string) : a +:+ "" = a.
Proof.
  induction a as [|ch a IH]; [done|]. exact (f_equal (String ch) IH).
Qed.

(** [fileName] is interpolated as it is, slashes included, so a file name
    can reach below the folder of its variant. A workspace-scoped request
    whose file name is [typebots/{t}/{f}] gets the very path of the
    typebot-scoped request for [t] and [f], after the workspace check alone:
    the typebot is neither looked up nor is its predicate consulted. In the
    same way a typebot-scoped request with file name [blocks/{b}] gets the
    path of block [b]. *)
Theorem fileName_is_not_confined :
  forall pw pt prisma uid w t,
    uid <> "" ->
    (forall f ws,
       workspace prisma !! w = Some ws -> pw ws uid = false ->
       parseFilePath pw pt prisma (Some uid)
         (props (ByWorkspace w ("typebots/" +:+ t +:+ "/" +:+ f)))
       = ([WorkspaceFindUnique w],
          inr ("public/workspaces/" +:+ w +:+ "/typebots/" +:+ t
               +:+ "/" +:+ f)))
    /\ (forall b tb,
          typebot prisma !! t = Some tb -> pt tb uid = false ->
          outcome (parseFilePath pw pt prisma (Some uid)
                     (props (ByTypebot w t ("blocks/" +:+ b))))
          = outcome (parseFilePath pw pt prisma (Some uid)
                       (props (ByBlock w t b None)))).
Proof.
  intros pw pt prisma uid w t Huid. split.
  - intros f ws Hsome Hallowed.
    destruct (ByWorkspace_fields w ("typebots/" +:+ t +:+ "/" +:+ f))
      as (Hu & Hw & Ht & Hf).
    rewrite (resolve_workspace pw pt prisma uid w _ Huid Hu Hw Ht), Hsome, Hf.
    cbn [workspace_denied Js.interpolate]. rewrite Hallowed.
    reflexivity.
  - intros b tb Hsome Hallowed.
    destruct (ByTypebot_fields w t ("blocks/" +:+ b))
      as (Hu & Hw & Ht & Hb & Hf).
    destruct (ByBlock_fields w t b None) as (Hu' & Hw' & Ht' & Hb' & Hi').
    rewrite (resolve_typebot pw pt prisma uid w t _ Huid Hu Hw Ht).
    rewrite (resolve_typebot pw pt prisma uid w t _ Huid Hu' Hw' Ht').
    rewrite Hsome. cbn [outcome snd]. rewrite Hallowed.
    unfold typebot_path. rewrite Hb, Hf, Hb', Hi'.
    cbn [Js.truthy Js.interpolate]. by rewrite append_empty_r.
Qed.

Lemma fileName_is_not_confined_witness :
  Sample.parse (Some "u1")
    (props (ByWorkspace "w1" ("typebots/" +:+ "t1" +:+ "/" +:+ "logo.png")))
  = ([WorkspaceFindUnique "w1"],
     inr ("public/workspaces/" +:+ "w1" +:+ "/typebots/" +:+ "t1"
          +:+ "/" +:+ "logo.png")).
Proof.
  apply (proj1 (fileName_is_not_confined
           Sample.isWriteWorkspaceForbidden Sample.isWriteTypebotForbidden
           Sample.prisma "u1" "w1" "t1" ltac:(discriminate)) "logo.png"
           (mkWorkspace [mkMember "u1" "ADMIN"; mkMember "u2" "GUEST"]));
    vm_compute; reflexivity.
Defined.

(** ** The public URL *)

(** [split] loses nothing: no piece contains the separator, and joining the
    pieces with the separator gives the string back. *)
Theorem split_round_trip :
  forall sep s,
    String.concat (String sep "") (Js.split sep s) = s
    /\ Forall (fun piece => occurs sep piece = false) (Js.split sep s).
Proof.
  intros sep s. induction s as [|c rest [IHjoin IHfree]].
  - split; [done|]. by repeat constructor.
  - cbn [Js.split]. pose proof (split_nonempty sep rest) as Hne.
    destruct (Ascii.eqb c sep) eqn:E.
    + apply Ascii.eqb_eq in E as ->. split; [|by constructor].
      destruct (Js.split sep rest) as [|piece pieces]; [done|].
      cbn [String.concat]. cbn [String.concat] in IHjoin.
      rewrite IHjoin. reflexivity.
    + destruct (Js.split sep rest) as [|piece pieces]; [done|].
      apply Forall_cons in IHfree as [Hpiece Hpieces]. split.
      * cbn [String.concat]. cbn [String.concat] in IHjoin.
        destruct pieces as [|piece' pieces'].
        -- by rewrite IHjoin.
        -- exact (f_equal (String c) IHjoin).
      * constructor; [|done]. cbn [occurs]. by rewrite E, Hpiece.
Qed.

(** Without a public custom domain, the [fileUrl] of a successful request
    carries no query string: it contains no question mark, and the
    presigned URL is [fileUrl] followed by nothing or by a part that starts
    with a question mark. A presigned URL without a question mark is
    returned unchanged. *)
Theorem fileUrl_without_domain_has_no_query :
  forall pw pt sign prisma env input fileType user log out,
    generateUploadUrl pw pt sign prisma env input fileType user
    = (log, inr out) ->
    Js.truthy (S3_PUBLIC_CUSTOM_DOMAIN env) = false ->
    occurs "?" (fileUrl out) = false
    /\ (exists query,
          presignedUrl out = fileUrl out +:+ query
          /\ (query = "" \/ exists tl, query = String "?" tl))
    /\ (occurs "?" (presignedUrl out) = false ->
        fileUrl out = presignedUrl out).
Proof.
  intros pw pt sign prisma env input fileType user log out Hrun Hdom.
  destruct (s3_misconfigured env) eqn:Hcfg.
  { by rewrite mutation_misconfigured in Hrun. }
  destruct (result_upload_without_user input user) eqn:Hguard.
  { by rewrite mutation_result_guard in Hrun. }
  rewrite mutation_resolved in Hrun by done.
  destruct (outcome (parseFilePath pw pt prisma (User.id <$> user) input))
    as [e|filePath]; [done|].
  injection Hrun as _ <-. cbn [fileUrl presignedUrl].
  unfold composeFileUrl. rewrite Hdom, split_head.
  destruct (before_first_prefix "?" (sign fileType filePath))
    as (Hfree & query & Heq & Hquery).
  split; [done|]. split.
  - exists query. by split.
  - apply before_first_no_sep.
Qed.

Lemma fileUrl_without_domain_has_no_query_witness :
  occurs "?" "https://s3.example.com/bucket/public/users/u1/avatar.png"
  = false.
Proof.
  apply (proj1 (fileUrl_without_domain_has_no_query
           Sample.isWriteWorkspaceForbidden Sample.isWriteTypebotForbidden
           Sample.generatePresignedUrl Sample.prisma Sample.env
           (props (ByUser "u1" "avatar.png")) None (Some (User.mk "u1"))
           [GeneratePresignedUrl None "public/users/u1/avatar.png"]
           (mkOutput
              "https://s3.example.com/bucket/public/users/u1/avatar.png?X-Amz-Expires=3600&X-Amz-Signature=abc"
              "https://s3.example.com/bucket/public/users/u1/avatar.png")
           ltac:(vm_compute; reflexivity) ltac:(reflexivity))).
Defined.



(** ** Kinds of failure *)


(** [parseFilePath] reports "not logged in" exactly when the authenticated
    id is missing or is the empty string; an empty id is never matched
    against a [userId], not even an empty one. *)
Theorem empty_user_id_is_not_logged_in :
  forall pw pt prisma auth input,
    outcome (parseFilePath pw pt prisma auth input) = inl not_logged_in
    <-> (auth = None \/ auth = Some "").
Proof.
  intros pw pt prisma auth input. split.
  - intros Hout.
    destruct (resolve_failure _ _ _ _ _ _ Hout)
      as [[_ Hauth] | [[? _] | [[? _] | [[? _] | [? _]]]]];
      try discriminate.
    destruct auth as [uid|]; [|by left]. right.
    unfold Js.truthy in Hauth. apply negb_false_iff, String.eqb_eq in Hauth.
    by subst.
  - intros [-> | ->]; by rewrite resolve_falsy_user.
Qed.

(** ** When an upload URL is granted *)

